(** * DateCollator: a shallow embedding of src/src/DateCollator.js

    The collator is built by [construct] (the class constructor) and
    queried by [compare] (the body of [compareUnbound]).  JavaScript
    values are modelled by [jsval]; strings are lists of UTF-16 code
    units; the builtin [Date] accessors and [Date.prototype.toString]
    follow the ECMAScript definitions (section "Date Objects"), over a
    host time zone given by its offset function and its display name. *)

From Stdlib Require Import ZArith List String Ascii Lia Bool.
Import ListNotations.
Open Scope Z_scope.
Set Warnings "-register-all".


(** ** JavaScript strings and values *)

(** A JavaScript string: a sequence of UTF-16 code units. *)
Definition jstr := list Z.

(** A source-level (ASCII) string literal as code units. *)
Definition lit (s : string) : jstr :=
  map (fun a => Z.of_nat (nat_of_ascii a)) (list_ascii_of_string s).

Fixpoint jstr_eqb (a b : jstr) : bool :=
  match a, b with
  | [], [] => true
  | x :: a', y :: b' => (x =? y) && jstr_eqb a' b'
  | _, _ => false
  end.

(** The abstract relation [IsLessThan] on two strings: lexicographic
    order of code units, a proper prefix being smaller. *)
Fixpoint str_lt (a b : jstr) : bool :=
  match a, b with
  | _, [] => false
  | [], _ :: _ => true
  | x :: a', y :: b' => if x <? y then true else if y <? x then false else str_lt a' b'
  end.

(** Exceptions thrown by the code, with their messages. *)
Inductive js_error : Type :=
| TypeError (msg : jstr)
| RangeError (msg : jstr)
| ReferenceError (msg : jstr)
| Error (msg : jstr).

(** A computation that returns normally or throws. *)
Inductive res (A : Type) : Type :=
| Ok (a : A)
| Err (e : js_error).
Arguments Ok {A} a.
Arguments Err {A} e.

Definition bind {A B} (m : res A) (f : A -> res B) : res B :=
  match m with Ok a => f a | Err e => Err e end.

Notation "x <- m ;; k" := (bind m (fun x => k))
  (at level 61, m at next level, right associativity).

(** JavaScript values as they reach the collator.  Numbers are the
    safe integers (magnitude below 2^53, printed in plain decimal by
    [String]) plus [NaN]; a Date object carries its time value ([None]
    for [NaN], an "Invalid Date").  Any other object is known by the
    outcome of its string conversion: the string, or the exception that
    [String(x)] throws (a TypeError for [Object.create(null)], whatever a
    throwing [toString] throws).  [JDateLike] is an object whose
    prototype chain holds [Date.prototype] but which is not a Date (no
    time value), e.g. [Object.create(Date.prototype, ...)]: it passes
    [instanceof Date], and [getTime()] throws on it. *)
Inductive jsval : Type :=
| JUndefined
| JNull
| JBool (b : bool)
| JNum (n : Z)
| JNaN
| JStr (s : jstr)
| JArray (xs : list jsval)
| JDate (tv : option Z)
| JDateLike (str : res jstr)
| JObj (str : res jstr).

Definition res_map {A B} (f : A -> B) (m : res A) : res B :=
  match m with Ok a => Ok (f a) | Err e => Err e end.


(** ToBoolean. *)
Definition truthy (v : jsval) : bool :=
  match v with
  | JUndefined | JNull | JNaN => false
  | JBool b => b
  | JNum n => negb (n =? 0)
  | JStr s => negb (jstr_eqb s [])
  | JArray _ | JDate _ | JDateLike _ | JObj _ => true
  end.

(** [Array.isArray]. *)
Definition is_array (v : jsval) : bool :=
  match v with JArray _ => true | _ => false end.

(** [v === "s"] for a string literal. *)
Definition is_str (v : jsval) (s : string) : bool :=
  match v with JStr t => jstr_eqb t (lit s) | _ => false end.

(** ** Decimal rendering *)

Fixpoint digits_rev (fuel : nat) (n : Z) : jstr :=
  match fuel with
  | O => []
  | S f => (48 + n mod 10) :: (if n <? 10 then [] else digits_rev f (n / 10))
  end.

(** The decimal digits of a non-negative integer. *)
Definition decimal (n : Z) : jstr :=
  rev (digits_rev (S (Z.to_nat (Z.log2 n))) n).

(** ToZeroPaddedDecimalString(n, minLength). *)
Definition zero_padded (n : Z) (min_length : nat) : jstr :=
  let s := decimal n in
  repeat 48 (min_length - List.length s) ++ s.

(** Number::toString on integer values. *)
Definition number_to_string (n : Z) : jstr :=
  if n <? 0 then lit "-" ++ decimal (- n) else decimal n.

Definition join (sep : jstr) (xs : list jstr) : jstr :=
  match xs with
  | [] => []
  | x :: rest => x ++ List.concat (map (fun y => sep ++ y) rest)
  end.

(** ** Time values (ECMAScript, "Date Objects") *)

Definition msPerDay : Z := 86400000.

Definition Day (t : Z) : Z := t / msPerDay.

Definition DaysInYear (y : Z) : Z :=
  if negb (y mod 4 =? 0) then 365
  else if negb (y mod 100 =? 0) then 366
  else if negb (y mod 400 =? 0) then 365
  else 366.

Definition DayFromYear (y : Z) : Z :=
  365 * (y - 1970) + (y - 1969) / 4 - (y - 1901) / 100 + (y - 1601) / 400.

Definition TimeFromYear (y : Z) : Z := msPerDay * DayFromYear y.

(** YearFromTime: the largest [y] with [TimeFromYear y <= t].  The mean
    Gregorian year gives an estimate within one year of it, which is then
    corrected. *)
Definition YearFromTime (t : Z) : Z :=
  let y := 1970 + (Day t * 400) / 146097 in
  if t <? TimeFromYear y then y - 1
  else if TimeFromYear (y + 1) <=? t then y + 1
  else y.

Definition InLeapYear (t : Z) : Z :=
  if DaysInYear (YearFromTime t) =? 366 then 1 else 0.

Definition DayWithinYear (t : Z) : Z := Day t - DayFromYear (YearFromTime t).

Definition MonthFromTime (t : Z) : Z :=
  let d := DayWithinYear t in
  let l := InLeapYear t in
  if d <? 31 then 0
  else if d <? 59 + l then 1
  else if d <? 90 + l then 2
  else if d <? 120 + l then 3
  else if d <? 151 + l then 4
  else if d <? 181 + l then 5
  else if d <? 212 + l then 6
  else if d <? 243 + l then 7
  else if d <? 273 + l then 8
  else if d <? 304 + l then 9
  else if d <? 334 + l then 10
  else 11.

Definition DateFromTime (t : Z) : Z :=
  let d := DayWithinYear t in
  let l := InLeapYear t in
  match MonthFromTime t with
  | 0 => d + 1
  | 1 => d - 30
  | 2 => d - 58 - l
  | 3 => d - 89 - l
  | 4 => d - 119 - l
  | 5 => d - 150 - l
  | 6 => d - 180 - l
  | 7 => d - 211 - l
  | 8 => d - 242 - l
  | 9 => d - 272 - l
  | 10 => d - 303 - l
  | _ => d - 333 - l
  end.

Definition WeekDay (t : Z) : Z := (Day t + 4) mod 7.

Definition HourFromTime (t : Z) : Z := (t / 3600000) mod 24.
Definition MinFromTime (t : Z) : Z := (t / 60000) mod 60.
Definition SecFromTime (t : Z) : Z := (t / 1000) mod 60.
Definition msFromTime (t : Z) : Z := t mod 1000.

Definition nth_name (names : list string) (i : Z) : jstr :=
  lit (nth (Z.to_nat i) names EmptyString).

Definition week_day_names : list string :=
  ["Sun"; "Mon"; "Tue"; "Wed"; "Thu"; "Fri"; "Sat"]%string.

Definition month_names : list string :=
  ["Jan"; "Feb"; "Mar"; "Apr"; "May"; "Jun";
   "Jul"; "Aug"; "Sep"; "Oct"; "Nov"; "Dec"]%string.

(** The host time zone: [LocalTZA] is the offset (in ms) of local time
    from UTC at a UTC time value, [tz_name] the implementation-defined
    name suffix of [Date.prototype.toString] at it (either empty or
    " (" ++ name ++ ")"). *)
Section HostTimeZone.
Variable LocalTZA : Z -> Z.
Variable tz_name : Z -> jstr.

Definition LocalTime (t : Z) : Z := t + LocalTZA t.

(** DateString(tv), TimeString(tv), TimeZoneString(tv) and
    ToDateString(tv): the result of [Date.prototype.toString]. *)
Definition DateString (tv : Z) : jstr :=
  let yv := YearFromTime tv in
  nth_name week_day_names (WeekDay tv) ++ lit " "
  ++ nth_name month_names (MonthFromTime tv) ++ lit " "
  ++ zero_padded (DateFromTime tv) 2 ++ lit " "
  ++ (if yv <? 0 then lit "-" else []) ++ zero_padded (Z.abs yv) 4.

Definition TimeString (tv : Z) : jstr :=
  zero_padded (HourFromTime tv) 2 ++ lit ":"
  ++ zero_padded (MinFromTime tv) 2 ++ lit ":"
  ++ zero_padded (SecFromTime tv) 2 ++ lit " GMT".

Definition TimeZoneString (tv : Z) : jstr :=
  let offset := LocalTZA tv in
  (if 0 <=? offset then lit "+" else lit "-")
  ++ zero_padded (HourFromTime (Z.abs offset)) 2
  ++ zero_padded (MinFromTime (Z.abs offset)) 2
  ++ tz_name tv.

Definition ToDateString (tv : option Z) : jstr :=
  match tv with
  | None => lit "Invalid Date"
  | Some tv => let t := LocalTime tv in
      DateString t ++ lit " " ++ TimeString t ++ TimeZoneString tv
  end.

(** [String(v)]: ToString, with the abstract objects resolved by their
    recorded conversion; an array is joined with "," and its [null] and
    [undefined] elements rendered empty ([Array.prototype.join]). *)
Fixpoint to_string (v : jsval) : res jstr :=
  match v with
  | JUndefined => Ok (lit "undefined")
  | JNull => Ok (lit "null")
  | JBool true => Ok (lit "true")
  | JBool false => Ok (lit "false")
  | JNum n => Ok (number_to_string n)
  | JNaN => Ok (lit "NaN")
  | JStr s => Ok s
  | JArray xs =>
      let fix elems (l : list jsval) : res (list jstr) :=
        match l with
        | [] => Ok []
        | x :: l' =>
            s <- (match x with JUndefined | JNull => Ok [] | _ => to_string x end);;
            ss <- elems l';;
            Ok (s :: ss)
        end in
      ss <- elems xs;; Ok (join (lit ",") ss)
  | JDate tv => Ok (ToDateString tv)
  | JDateLike str | JObj str => str
  end.


(** ** The collator *)

(** The accessor family of one [dateUsage]: [getFullYear], [getMonth],
    ..., [getMilliseconds] on a valid time value, read at local time for
    ['local'] and at the time value itself for ['utc'] ([getUTCFullYear],
    ...). *)
Record date_getters : Type := {
  getFullYear : Z -> Z;
  getMonth : Z -> Z;
  getDate : Z -> Z;
  getDay : Z -> Z;
  getHours : Z -> Z;
  getMinutes : Z -> Z;
  getSeconds : Z -> Z;
  getMilliseconds : Z -> Z
}.

Definition getters_at (clock : Z -> Z) : date_getters := {|
  getFullYear := fun t => YearFromTime (clock t);
  getMonth := fun t => MonthFromTime (clock t);
  getDate := fun t => DateFromTime (clock t);
  getDay := fun t => WeekDay (clock t);
  getHours := fun t => HourFromTime (clock t);
  getMinutes := fun t => MinFromTime (clock t);
  getSeconds := fun t => SecFromTime (clock t);
  getMilliseconds := fun t => msFromTime (clock t)
|}.

Definition local_getters : date_getters := getters_at LocalTime.
Definition utc_getters : date_getters := getters_at (fun t => t).

(** The inner [switch( eachDateSensitivity )] of one accessor family. *)
Definition switch_date_part (g : date_getters) (eachDateSensitivity : jsval)
    (leftDate rightDate : Z) : res (Z * Z) :=
  if is_str eachDateSensitivity "day" then
    Ok (getDate g leftDate, getDate g rightDate)
  else if is_str eachDateSensitivity "dayPeriod" then
    Ok (getHours g leftDate / 12, getHours g rightDate / 12)
  else if is_str eachDateSensitivity "era" then
    Ok (Z.sgn (getFullYear g leftDate), Z.sgn (getFullYear g rightDate))
  else if is_str eachDateSensitivity "hour" then
    Ok (getHours g leftDate, getHours g rightDate)
  else if is_str eachDateSensitivity "minute" then
    Ok (getMinutes g leftDate, getMinutes g rightDate)
  else if is_str eachDateSensitivity "second" then
    Ok (getSeconds g leftDate, getSeconds g rightDate)
  else if is_str eachDateSensitivity "month" then
    Ok (getMonth g leftDate, getMonth g rightDate)
  else if is_str eachDateSensitivity "weekday" then
    Ok (getDay g leftDate, getDay g rightDate)
  else if is_str eachDateSensitivity "year" then
    Ok (getFullYear g leftDate, getFullYear g rightDate)
  else if is_str eachDateSensitivity "fractionalSecond" then
    Ok (getMilliseconds g leftDate, getMilliseconds g rightDate)
  else
    (* the template literal converts the value to a string first *)
    s <- to_string eachDateSensitivity;;
    Err (Error (lit "Unhandled 'dateSensitivity' value '" ++ s ++ lit "'.")).

(** The [map] callback: the outer [switch( this.hidden.options.dateUsage )].
    Its default case reads [this.options.dateUsage], and [this.options] is
    [undefined]: reading a property of it throws a TypeError before the
    Error is built. *)
Definition part_pair (dateUsage eachDateSensitivity : jsval)
    (leftDate rightDate : Z) : res (Z * Z) :=
  if is_str dateUsage "local" then
    switch_date_part local_getters eachDateSensitivity leftDate rightDate
  else if is_str dateUsage "utc" then
    switch_date_part utc_getters eachDateSensitivity leftDate rightDate
  else
    Err (TypeError (lit "Cannot read properties of undefined (reading 'dateUsage')")).

(** [Array.prototype.map] with a callback that may throw. *)
Fixpoint map_res {A B} (f : A -> res B) (xs : list A) : res (list B) :=
  match xs with
  | [] => Ok []
  | x :: xs' => y <- f x;; ys <- map_res f xs';; Ok (y :: ys)
  end.

(** [datePartReducer].  The accumulator is a JavaScript number in every
    call (the initial value is the literal [0] and each step returns a
    number), so its [typeof] guard never throws; in the model the
    accumulator has type [Z]. *)
Definition datePartReducer (difference : Z) (partPair : Z * Z) : Z :=
  if difference =? 0 then fst partPair - snd partPair else difference.

(** [Math.min( Math.max( -1, difference ), +1 )]. *)
Definition clamp (difference : Z) : Z := Z.min (Z.max (-1) difference) 1.

(** The configuration read by [compare]: the array
    [this.hidden.options.dateSensitivity] and the value
    [this.hidden.options.dateUsage]. *)
Record collator : Type := {
  dateSensitivity : list jsval;
  dateUsage : jsval
}.

(** [v instanceof Date]: true of Date objects and of the other objects
    that inherit from [Date.prototype]. *)
Definition instanceof_Date (v : jsval) : bool :=
  match v with JDate _ | JDateLike _ => true | _ => false end.

(** [v.getTime()] on a value that passed [instanceof Date]: the time
    value of a Date, a TypeError on an object that has none. *)
Definition getTime (v : jsval) : res (option Z) :=
  match v with
  | JDate tv => Ok tv
  | _ => Err (TypeError (lit "this is not a Date object."))
  end.

(** [areBothValidDates] (lines 130-131), evaluated left to right with
    the short-circuit of [&&]: [Some (l, r)] when it is true, with the
    two time values. *)
Definition areBothValidDates (leftDate rightDate : jsval) : res (option (Z * Z)) :=
  if instanceof_Date leftDate && instanceof_Date rightDate then
    lt <- getTime leftDate;;
    match lt with
    | None => Ok None
    | Some l =>
        rt <- getTime rightDate;;
        match rt with
        | None => Ok None
        | Some r => Ok (Some (l, r))
        end
    end
  else Ok None.

(** [compareUnbound( leftDate, rightDate )], with [undefined] for an
    absent argument. *)
Definition compare (c : collator) (leftDate rightDate : jsval) : res Z :=
  both <- areBothValidDates leftDate rightDate;;
  match both with
  | Some (l, r) =>
      partPairs <- map_res (fun p => part_pair (dateUsage c) p l r) (dateSensitivity c);;
      let difference := fold_left datePartReducer partPairs 0 in
      Ok (clamp difference)
  | None =>
      leftString <- to_string leftDate;;
      rightString <- to_string rightDate;;
      let difference :=
        if str_lt leftString rightString then -1
        else if str_lt rightString leftString then 1
        else 0 in
      Ok (clamp difference)
  end.


(** ** The constructor *)

(** The [options] argument of [construct]: [None] when it is falsy
    ([undefined], [null], ...), which the constructor replaces by [{}];
    [Some] for an ordinary extensible object, given by the values of its
    two properties ([JUndefined] when a property is missing).  A truthy
    primitive is the [OptionsPrimitive] case of [new_DateCollator]. *)
Record options : Type := {
  opt_dateSensitivity : jsval;
  opt_dateUsage : jsval
}.

(** [Object.values( DateCollator.DateSensitivity )]. *)
Definition DateSensitivity_values : list string :=
  ["era"; "year"; "month"; "weekday"; "day"; "dayPeriod";
   "hour"; "minute"; "second"; "fractionalSecond"]%string.

(** [Object.values( DateCollator.DateUsage )]. *)
Definition DateUsage_values : list string := ["local"; "utc"]%string.

(** [values.includes( v )] (SameValueZero on strings). *)
Definition includes (values : list string) (v : jsval) : bool :=
  existsb (is_str v) values.

Definition default_dateSensitivity : jsval :=
  JArray (map (fun s => JStr (lit s))
    ["year"; "month"; "day"; "hour"; "minute"; "second"; "fractionalSecond"]%string).

(** [new DateCollator( _locales, options )].  In the [RangeError] branch
    for [dateSensitivity] the message template names
    [eachDateSensitivity], which is only bound inside the [some] callback:
    evaluating the template throws a ReferenceError (module code is
    strict), so that RangeError is never built. *)
Definition construct (opts : option options) : res collator :=
  let o := match opts with
           | Some o => o
           | None => {| opt_dateSensitivity := JUndefined; opt_dateUsage := JUndefined |}
           end in
  let ds := if truthy (opt_dateSensitivity o) then opt_dateSensitivity o
            else default_dateSensitivity in
  let du := if truthy (opt_dateUsage o) then opt_dateUsage o else JStr (lit "local") in
  match ds with
  | JArray elems =>
      if existsb (fun e => negb (includes DateSensitivity_values e)) elems then
        Err (ReferenceError (lit "eachDateSensitivity is not defined"))
      else if negb (includes DateUsage_values du) then
        s <- to_string du;;
        Err (RangeError (lit "Value '" ++ s
          ++ lit "' out of range for DateCollator options property 'dateUsage'."))
      else Ok {| dateSensitivity := elems; dateUsage := du |}
  | _ =>
      Err (TypeError (lit "DateCollator options property 'dateSensitivity' must be an array."))
  end.

(** The [options] argument as any JavaScript value: a falsy value, an
    object, or another primitive (a string, number or boolean). *)
Inductive options_arg : Type :=
| OptionsObject (o : options)
| OptionsPrimitive (v : jsval).

(** [typeof] of a primitive, as the engine's message names it. *)
Definition primitive_type (v : jsval) : jstr :=
  match v with
  | JStr _ => lit "string"
  | JBool _ => lit "boolean"
  | _ => lit "number"
  end.

(** [new DateCollator( _locales, options )].  A falsy primitive is
    replaced by [{}]; on a truthy one, line 63 reads [dateSensitivity]
    ([undefined]) and then assigns the default list to a property of a
    primitive, which throws a TypeError in the strict code of a class. *)
Definition new_DateCollator (a : options_arg) : res collator :=
  match a with
  | OptionsObject o => construct (Some o)
  | OptionsPrimitive v =>
      if truthy v then
        s <- to_string v;;
        Err (TypeError (lit "Cannot create property 'dateSensitivity' on "
          ++ primitive_type v ++ lit " '" ++ s ++ lit "'"))
      else construct None
  end.

(** The comparison of two valid dates as the spec words it, for the
    refinement claim: walk the configured parts in order, stop at the
    first part whose pair differs (non-zero subtraction) and return the
    sign of that difference; [0] when every configured pair is equal.
    Parts after the first difference are never extracted. *)
Fixpoint short_circuit_compare (dateUsage : jsval) (parts : list jsval)
    (leftDate rightDate : Z) : res Z :=
  match parts with
  | [] => Ok 0
  | p :: ps =>
      pr <- part_pair dateUsage p leftDate rightDate;;
      if fst pr - snd pr =? 0 then short_circuit_compare dateUsage ps leftDate rightDate
      else Ok (Z.sgn (fst pr - snd pr))
  end.

End HostTimeZone.

(** ** Hosts and configurations used in the concrete statements *)

(** A host running in UTC. *)
Definition utc_offset : Z -> Z := fun _ => 0.
Definition utc_name : Z -> jstr := fun _ => lit " (Coordinated Universal Time)".

(** A host at a fixed UTC-4 (North American Eastern daylight time). *)
Definition edt_offset : Z -> Z := fun _ => -14400000.
Definition edt_name : Z -> jstr := fun _ => lit " (Eastern Daylight Time)".

(** The configuration of [new DateCollator()]. *)
Definition default_collator : collator := {|
  dateSensitivity := map (fun s => JStr (lit s))
    ["year"; "month"; "day"; "hour"; "minute"; "second"; "fractionalSecond"]%string;
  dateUsage := JStr (lit "local")
|}.



(** Time values of the dates of the test suite, on the UTC-4 host:
    [new Date( 2020, 2, 23, h, 0 )] and [new Date( 2026, 2, 23, 11, 0 )]. *)
Definition date2020_03_23T09_00 : Z := 1584968400000.
Definition date2020_03_23T11_00 : Z := 1584975600000.
Definition date2020_03_23T17_00 : Z := 1584997200000.
Definition date2026_03_23T11_00 : Z := 1774278000000.

(** ** Orders on part keys *)

(** The sign of the first non-zero difference of two key sequences
    (the reduce-then-clamp of [compareUnbound] seen on its part values). *)
Fixpoint lex_sign (xs ys : list Z) : Z :=
  match xs, ys with
  | x :: xs', y :: ys' => if x - y =? 0 then lex_sign xs' ys' else Z.sgn (x - y)
  | _, _ => 0
  end.

(** The key sequence of a time value under a list of part extractors. *)
Definition keys (fs : list (Z -> Z)) (t : Z) : list Z := map (fun f => f t) fs.

(** The date parts of the default configuration, as time functions. *)
Definition time_fns : list (Z -> Z) :=
  [YearFromTime; MonthFromTime; DateFromTime; HourFromTime; MinFromTime; SecFromTime;
   msFromTime].

(** A host on North American Eastern time around the end of daylight
    saving time in 2020: UTC-4 before 2020-11-01T06:00Z, UTC-5 after. *)
Definition dst_offset : Z -> Z :=
  fun t => if t <? 1604210400000 then -14400000 else -18000000.
Definition dst_name : Z -> jstr :=
  fun t => if t <? 1604210400000 then lit " (Eastern Daylight Time)"
           else lit " (Eastern Standard Time)".

(** The caller's options object after lines 63-66 of the constructor,
    which assign the effective values to its two properties. *)
Definition options_written (o : options) : options := {|
  opt_dateSensitivity :=
    if truthy (opt_dateSensitivity o) then opt_dateSensitivity o else default_dateSensitivity;
  opt_dateUsage := if truthy (opt_dateUsage o) then opt_dateUsage o else JStr (lit "local")
|}.

(** ** Sanity checks against the test suite *)

Example construct_default :
  construct edt_offset edt_name None = Ok default_collator.
Proof. vm_compute. reflexivity. Qed.

Example sort_order_default :
  compare edt_offset edt_name default_collator
    (JDate (Some date2020_03_23T09_00)) (JDate (Some date2020_03_23T11_00)) = Ok (-1)
  /\ compare edt_offset edt_name default_collator
    (JDate (Some date2020_03_23T17_00)) (JDate (Some date2026_03_23T11_00)) = Ok (-1)
  /\ compare edt_offset edt_name default_collator
    (JDate (Some date2020_03_23T17_00)) (JDate (Some date2020_03_23T11_00)) = Ok 1.
Proof. vm_compute. repeat split. Qed.

Example same_day_utc :
  compare edt_offset edt_name
    {| dateSensitivity := [JStr (lit "year"); JStr (lit "month"); JStr (lit "day")];
       dateUsage := JStr (lit "utc") |}
    (JDate (Some date2020_03_23T09_00)) (JDate (Some date2020_03_23T17_00)) = Ok 0.
Proof. vm_compute. reflexivity. Qed.

Example fallback_suite :
  compare edt_offset edt_name default_collator (JDate None) (JDate (Some date2020_03_23T17_00)) = Ok (-1)
  /\ compare edt_offset edt_name default_collator (JDate None) JNull = Ok (-1)
  /\ compare edt_offset edt_name default_collator (JDate None) (JDate None) = Ok 0
  /\ compare edt_offset edt_name default_collator JNull JNull = Ok 0.
Proof. vm_compute. repeat split. Qed.

Example invalid_options_throw :
  (exists e, construct edt_offset edt_name
     (Some {| opt_dateSensitivity := JStr (lit "year"); opt_dateUsage := JUndefined |}) = Err e)
  /\ (exists e, construct edt_offset edt_name
     (Some {| opt_dateSensitivity := JUndefined; opt_dateUsage := JStr (lit "gmt") |}) = Err e).
Proof. split; eexists; vm_compute; reflexivity. Qed.

(** ** General lemmas *)

Lemma clamp_range (d : Z) : clamp d = -1 \/ clamp d = 0 \/ clamp d = 1.
Proof. unfold clamp. lia. Qed.

Lemma clamp_sgn (d : Z) : clamp d = Z.sgn d.
Proof. unfold clamp. destruct (Z.sgn_spec d) as [[? ->]|[[? ->]|[? ->]]]; lia. Qed.

Lemma clamp_opp (d : Z) : clamp (- d) = - clamp d.
Proof. rewrite !clamp_sgn. apply Z.sgn_opp. Qed.

Lemma str_lt_head (x y : Z) (a b : jstr) :
  x < y -> str_lt (x :: a) (y :: b) = true /\ str_lt (y :: b) (x :: a) = false.
Proof.
  intros H. simpl.
  destruct (Z.ltb_spec x y); [|lia]. destruct (Z.ltb_spec y x); [lia|]. auto.
Qed.

(** The text of a valid date starts with the first letter of a weekday
    name: one of "F", "M", "S", "T", "W" (code units 70 to 87). *)
Lemma date_string_head (LocalTZA : Z -> Z) (tz_name : Z -> jstr) (tv : Z) :
  exists x rest, ToDateString LocalTZA tz_name (Some tv) = x :: rest /\ 70 <= x <= 87.
Proof.
  unfold ToDateString, DateString.
  remember (WeekDay (LocalTime LocalTZA tv)) as w eqn:Hw.
  assert (0 <= w < 7) by (subst w; unfold WeekDay; apply Z.mod_pos_bound; lia).
  assert (w = 0 \/ w = 1 \/ w = 2 \/ w = 3 \/ w = 4 \/ w = 5 \/ w = 6) as Hc by lia.
  destruct Hc as [->|[->|[->|[->|[->|[->| ->]]]]]]; simpl; eexists _, _; split;
    try reflexivity; lia.
Qed.

Lemma to_string_date (LocalTZA : Z -> Z) (tz_name : Z -> jstr) (tv : option Z) :
  to_string LocalTZA tz_name (JDate tv) = Ok (ToDateString LocalTZA tz_name tv).
Proof. reflexivity. Qed.

(** When [areBothValidDates] is false, [compare] is the string fallback. *)
Lemma compare_not_dates (LocalTZA : Z -> Z) (tz_name : Z -> jstr) (c : collator)
    (l r : jsval) :
  areBothValidDates l r = Ok None ->
  compare LocalTZA tz_name c l r =
    (leftString <- to_string LocalTZA tz_name l;;
     rightString <- to_string LocalTZA tz_name r;;
     Ok (clamp (if str_lt leftString rightString then -1
                else if str_lt rightString leftString then 1 else 0))).
Proof. intros H. unfold compare. rewrite H. reflexivity. Qed.

Lemma compare_fallback (LocalTZA : Z -> Z) (tz_name : Z -> jstr) (c : collator)
    (l r : jsval) (ls rs : jstr) :
  areBothValidDates l r = Ok None ->
  to_string LocalTZA tz_name l = Ok ls -> to_string LocalTZA tz_name r = Ok rs ->
  compare LocalTZA tz_name c l r =
    Ok (if str_lt ls rs then -1 else if str_lt rs ls then 1 else 0).
Proof.
  intros Hnd Hl Hr. rewrite compare_not_dates, Hl, Hr by exact Hnd. simpl.
  destruct (str_lt ls rs); [reflexivity|]. destruct (str_lt rs ls); reflexivity.
Qed.




(** [compare] on two valid dates. *)
Lemma compare_dates (LocalTZA : Z -> Z) (tz_name : Z -> jstr) (c : collator) (l r : Z) :
  compare LocalTZA tz_name c (JDate (Some l)) (JDate (Some r))
  = (partPairs <- map_res (fun p => part_pair LocalTZA tz_name (dateUsage c) p l r)
                   (dateSensitivity c);;
     Ok (clamp (fold_left datePartReducer partPairs 0))).
Proof. reflexivity. Qed.

(** A valid date's text sorts before the texts "null" and "undefined". *)
Lemma date_before_word (LocalTZA : Z -> Z) (tz_name : Z -> jstr) (c : collator)
    (tv : Z) (w : jsval) (s : string) :
  w = JNull \/ w = JUndefined ->
  to_string LocalTZA tz_name w = Ok (lit s) ->
  (exists x rest, lit s = x :: rest /\ 97 <= x) ->
  compare LocalTZA tz_name c (JDate (Some tv)) w = Ok (-1)
  /\ compare LocalTZA tz_name c w (JDate (Some tv)) = Ok 1.
Proof.
  intros Hw Hs [y [b [Hy Hy']]].
  destruct (date_string_head LocalTZA tz_name tv) as [x [a [Hx Hx']]].
  destruct (str_lt_head x y a b) as [H1 H2]; [lia|].
  split; (erewrite compare_fallback; [| |apply to_string_date + apply Hs
                                        |apply to_string_date + apply Hs]).
  - rewrite Hx, Hy, H1. reflexivity.
  - destruct Hw; subst; reflexivity.
  - rewrite Hx, Hy, H1, H2. reflexivity.
  - destruct Hw; subst; reflexivity.
Qed.

(** ** The claims *)


(** C7 (as amended): in the string-fallback order a valid date's text
    sorts before the text of [null], and [null]'s text before that of
    [undefined]: for every valid date [v], [compare(v, null) < 0] and
    [compare(null, undefined) < 0]. *)
Theorem compare_date_null_undefined (LocalTZA : Z -> Z) (tz_name : Z -> jstr)
    (c : collator) (tv : Z) :
  compare LocalTZA tz_name c (JDate (Some tv)) JNull = Ok (-1)
  /\ compare LocalTZA tz_name c JNull JUndefined = Ok (-1).
Proof.
  split.
  - apply (date_before_word LocalTZA tz_name c tv JNull "null");
      [left; reflexivity|reflexivity|eexists _, _; split; [reflexivity|cbn; lia]].
  - reflexivity.
Qed.

(** C7, counterexample: the claim says [compare(v, null) > 0] for every
    valid date [v]; on a UTC host, for the valid date of time value 0
    (Thu Jan 01 1970), [compare(v, null)] is [-1], and so is
    [compare(null, undefined)] (the claim says [> 0]). *)
Lemma compare_date_null_counterexample :
  compare utc_offset utc_name default_collator (JDate (Some 0)) JNull = Ok (-1)
  /\ compare utc_offset utc_name default_collator JNull JUndefined = Ok (-1).
Proof. vm_compute. split; reflexivity. Qed.

(** C2 (code_bug): on a UTC host, the valid date of time value 86400000
    is Fri Jan 02 1970, whose text "Fri ..." sorts before "Invalid Date":
    [compare(invalidDate, v)] is [+1] and [compare(v, invalidDate)] is
    [-1], the opposite of the claimed order. *)
Theorem compare_invalid_friday :
  ToDateString utc_offset utc_name (Some 86400000)
    = lit "Fri Jan 02 1970 00:00:00 GMT+0000 (Coordinated Universal Time)"
  /\ compare utc_offset utc_name default_collator (JDate None) (JDate (Some 86400000)) = Ok 1
  /\ compare utc_offset utc_name default_collator (JDate (Some 86400000)) (JDate None) = Ok (-1).
Proof. vm_compute. repeat split. Qed.

(** ** Lemmas on validated configurations *)

Lemma existsb_negb {A} (f : A -> bool) (l : list A) :
  existsb (fun e => negb (f e)) l = negb (forallb f l).
Proof. induction l as [|x l IH]; simpl; [reflexivity|]. rewrite IH. destruct (f x); reflexivity. Qed.

(** What the constructor checks holds of the configuration it returns. *)
Lemma construct_valid (LocalTZA : Z -> Z) (tz_name : Z -> jstr) (o : option options)
    (c : collator) :
  construct LocalTZA tz_name o = Ok c ->
  forallb (includes DateSensitivity_values) (dateSensitivity c) = true
  /\ includes DateUsage_values (dateUsage c) = true.
Proof.
  intros H. unfold construct in H. cbv zeta in H.
  set (du := if truthy (opt_dateUsage _) then _ else JStr _) in H.
  destruct (if truthy (opt_dateSensitivity _) then _ else default_dateSensitivity)
    as [| | | | | |elems| | |]; try discriminate.
  rewrite existsb_negb in H.
  destruct (forallb (includes DateSensitivity_values) elems) eqn:Es;
    cbn [negb] in H; [|discriminate].
  destruct (includes DateUsage_values du) eqn:Eu; cbn [negb] in H.
  - inversion H; subst; simpl; auto.
  - destruct (to_string _ _ du); discriminate.
Qed.

Ltac contradict_includes H :=
  unfold includes, DateSensitivity_values, DateUsage_values in H;
  cbn [existsb] in H;
  repeat match goal with E : is_str _ _ = false |- _ => rewrite E in H end;
  discriminate.

(** A recognized part under a recognized usage never reaches a default
    case of the two switches. *)
Lemma part_pair_ok (LocalTZA : Z -> Z) (tz_name : Z -> jstr) (du p : jsval) (l r : Z) :
  includes DateSensitivity_values p = true -> includes DateUsage_values du = true ->
  exists pr, part_pair LocalTZA tz_name du p l r = Ok pr.
Proof.
  intros Hp Hdu. unfold part_pair.
  destruct (is_str du "local") eqn:E1; [|destruct (is_str du "utc") eqn:E2];
    [| |contradict_includes Hdu];
  unfold switch_date_part;
  repeat match goal with
         | |- context [if is_str p ?s then _ else _] =>
             destruct (is_str p s) eqn:?; [eexists; reflexivity|]
         end;
  contradict_includes Hp.
Qed.

Lemma map_res_ok (LocalTZA : Z -> Z) (tz_name : Z -> jstr) (du : jsval) (l r : Z)
    (ps : list jsval) :
  forallb (includes DateSensitivity_values) ps = true -> includes DateUsage_values du = true ->
  exists pairs, map_res (fun p => part_pair LocalTZA tz_name du p l r) ps = Ok pairs.
Proof.
  intros Hps Hdu. induction ps as [|p ps IH]; simpl in *; [eauto|].
  apply andb_prop in Hps as [Hp Hps].
  destruct (part_pair_ok LocalTZA tz_name du p l r Hp Hdu) as [pr ->].
  destruct (IH Hps) as [pairs ->]. simpl. eauto.
Qed.

Lemma fold_reducer_nonzero (pairs : list (Z * Z)) (acc : Z) :
  acc <> 0 -> fold_left datePartReducer pairs acc = acc.
Proof.
  revert acc. induction pairs as [|pr pairs IH]; intros acc H; simpl; [reflexivity|].
  unfold datePartReducer at 2. destruct (Z.eqb_spec acc 0); [lia|]. auto.
Qed.

(** Computing every pair and reducing equals the short-circuit walk. *)
Lemma reduce_refines (LocalTZA : Z -> Z) (tz_name : Z -> jstr) (du : jsval) (l r : Z)
    (ps : list jsval) :
  forallb (includes DateSensitivity_values) ps = true -> includes DateUsage_values du = true ->
  res_map (fun pairs => clamp (fold_left datePartReducer pairs 0))
    (map_res (fun p => part_pair LocalTZA tz_name du p l r) ps)
  = short_circuit_compare LocalTZA tz_name du ps l r.
Proof.
  intros Hps Hdu. induction ps as [|p ps IH]; simpl in *; [reflexivity|].
  apply andb_prop in Hps as [Hp Hps].
  destruct (part_pair_ok LocalTZA tz_name du p l r Hp Hdu) as [[a b] ->].
  destruct (map_res_ok LocalTZA tz_name du l r ps Hps Hdu) as [pairs Hpairs].
  rewrite Hpairs in *. simpl. specialize (IH Hps). simpl in IH.
  unfold datePartReducer at 2. simpl.
  destruct (Z.eqb_spec (a - b) 0) as [E|E].
  - rewrite E. exact IH.
  - rewrite fold_reducer_nonzero by exact E. rewrite clamp_sgn. reflexivity.
Qed.

(** Swapping the two dates swaps every extracted pair. *)
Lemma part_pair_swap (LocalTZA : Z -> Z) (tz_name : Z -> jstr) (du p : jsval) (l r : Z) :
  part_pair LocalTZA tz_name du p r l
  = res_map (fun pr => (snd pr, fst pr)) (part_pair LocalTZA tz_name du p l r).
Proof.
  unfold part_pair, switch_date_part.
  repeat match goal with |- context [if ?b then _ else _] => destruct b end;
    try reflexivity;
  destruct (to_string LocalTZA tz_name p); reflexivity.
Qed.

Lemma map_res_swap (LocalTZA : Z -> Z) (tz_name : Z -> jstr) (du : jsval) (l r : Z)
    (ps : list jsval) :
  map_res (fun p => part_pair LocalTZA tz_name du p r l) ps
  = res_map (map (fun pr => (snd pr, fst pr)))
      (map_res (fun p => part_pair LocalTZA tz_name du p l r) ps).
Proof.
  induction ps as [|p ps IH]; simpl; [reflexivity|].
  rewrite part_pair_swap.
  destruct (part_pair LocalTZA tz_name du p l r) as [pr|e]; simpl; [|reflexivity].
  rewrite IH. destruct (map_res (fun p => part_pair LocalTZA tz_name du p l r) ps); reflexivity.
Qed.

Lemma fold_reducer_swap (pairs : list (Z * Z)) (acc : Z) :
  fold_left datePartReducer (map (fun pr => (snd pr, fst pr)) pairs) (- acc)
  = - fold_left datePartReducer pairs acc.
Proof.
  revert acc. induction pairs as [|[a b] pairs IH]; intros acc; simpl; [reflexivity|].
  unfold datePartReducer at 2 4. simpl.
  destruct (Z.eqb_spec acc 0) as [E|E].
  - subst acc. simpl. replace (b - a) with (- (a - b)) by lia. apply IH.
  - destruct (Z.eqb_spec (- acc) 0); [lia|]. apply IH.
Qed.

(** ** The claims on construction and on valid dates *)

(** C1 (code_bug): [new DateCollator( null, {dateSensitivity:['millisecond']})]
    does not throw the RangeError of line 74: building its message reads
    the unbound name [eachDateSensitivity], so a ReferenceError is thrown. *)
Theorem construct_unknown_part_reference_error :
  construct utc_offset utc_name
    (Some {| opt_dateSensitivity := JArray [JStr (lit "millisecond")];
             opt_dateUsage := JUndefined |})
  = Err (ReferenceError (lit "eachDateSensitivity is not defined")).
Proof. vm_compute. reflexivity. Qed.



(** C4 (as amended): a [dateSensitivity] option that is truthy and not an
    array makes construction throw a TypeError; a falsy one ([false], [0],
    [NaN], [''], [null]) is replaced by the default, exactly as if it were
    absent. *)
Theorem construct_dateSensitivity_type (LocalTZA : Z -> Z) (tz_name : Z -> jstr)
    (ds du : jsval) :
  (truthy ds = true -> is_array ds = false ->
   exists msg, construct LocalTZA tz_name
     (Some {| opt_dateSensitivity := ds; opt_dateUsage := du |}) = Err (TypeError msg))
  /\ (truthy ds = false ->
      construct LocalTZA tz_name (Some {| opt_dateSensitivity := ds; opt_dateUsage := du |})
      = construct LocalTZA tz_name
          (Some {| opt_dateSensitivity := JUndefined; opt_dateUsage := du |})).
Proof.
  split; intros Ht.
  - intros Ha. unfold construct. cbv zeta. cbn [opt_dateSensitivity]. rewrite Ht.
    destruct ds; try discriminate; eexists; reflexivity.
  - unfold construct. cbv zeta. cbn [opt_dateSensitivity opt_dateUsage]. rewrite Ht.
    reflexivity.
Qed.

(** C4, counterexample: [new DateCollator( null, {dateSensitivity:''})]
    supplies a non-array and does not throw: it gets the default
    configuration. *)
Lemma construct_empty_string_counterexample :
  construct utc_offset utc_name
    (Some {| opt_dateSensitivity := JStr []; opt_dateUsage := JUndefined |})
  = Ok default_collator.
Proof. vm_compute. reflexivity. Qed.

(** C5: for a comparator returned by the constructor and two valid dates,
    computing every part pair and reducing them gives exactly the
    short-circuit lexicographic result: the sign of the difference at the
    first configured part whose pair differs, [0] if none differs. *)
Theorem compare_refines_short_circuit (LocalTZA : Z -> Z) (tz_name : Z -> jstr)
    (o : option options) (c : collator) (l r : Z) :
  construct LocalTZA tz_name o = Ok c ->
  compare LocalTZA tz_name c (JDate (Some l)) (JDate (Some r))
  = short_circuit_compare LocalTZA tz_name (dateUsage c) (dateSensitivity c) l r.
Proof.
  intros Hc. destruct (construct_valid LocalTZA tz_name o c Hc) as [Hds Hdu].
  rewrite <- (reduce_refines LocalTZA tz_name (dateUsage c) l r _ Hds Hdu).
  rewrite compare_dates. destruct (map_res _ _); reflexivity.
Qed.

(** C8: whenever [compare] returns, its result is [-1], [0] or [+1]. *)
Theorem compare_result_unit (LocalTZA : Z -> Z) (tz_name : Z -> jstr)
    (c : collator) (l r : jsval) (z : Z) :
  compare LocalTZA tz_name c l r = Ok z -> z = -1 \/ z = 0 \/ z = 1.
Proof.
  intros H. unfold compare in H.
  destruct (areBothValidDates l r) as [[[tl tr]|]|e]; cbn [bind] in H; [| |discriminate].
  - destruct (map_res (fun p => part_pair LocalTZA tz_name (dateUsage c) p tl tr)
                (dateSensitivity c)); cbn [bind] in H; [|discriminate].
    inversion H. apply clamp_range.
  - destruct (to_string LocalTZA tz_name l); cbn [bind] in H; [|discriminate].
    destruct (to_string LocalTZA tz_name r); cbn [bind] in H; [|discriminate].
    inversion H. apply clamp_range.
Qed.

(** C9: for two valid dates and one configuration,
    [sign(compare(a, b)) = -sign(compare(b, a))] (and when one direction
    throws, so does the other, with the same error). *)
Theorem compare_antisymmetric (LocalTZA : Z -> Z) (tz_name : Z -> jstr)
    (c : collator) (a b : Z) :
  res_map Z.sgn (compare LocalTZA tz_name c (JDate (Some a)) (JDate (Some b)))
  = res_map (fun x => - Z.sgn x) (compare LocalTZA tz_name c (JDate (Some b)) (JDate (Some a))).
Proof.
  rewrite !compare_dates. rewrite (map_res_swap LocalTZA tz_name (dateUsage c) a b).
  destruct (map_res (fun p => part_pair LocalTZA tz_name (dateUsage c) p a b)
              (dateSensitivity c)) as [pairs|e]; simpl; [|reflexivity].
  pose proof (fold_reducer_swap pairs 0) as Hs. simpl in Hs. rewrite Hs.
  rewrite clamp_opp, Z.sgn_opp, Z.opp_involutive. reflexivity.
Qed.

(** C10: with [dateSensitivity:[]] and either usage (or none) construction
    succeeds, and the comparator returns [0] on every pair of valid
    dates. *)
Theorem empty_sensitivity_all_equal (LocalTZA : Z -> Z) (tz_name : Z -> jstr) (du : jsval) :
  du = JUndefined \/ du = JStr (lit "local") \/ du = JStr (lit "utc") ->
  exists c,
    construct LocalTZA tz_name
      (Some {| opt_dateSensitivity := JArray []; opt_dateUsage := du |}) = Ok c
    /\ forall a b, compare LocalTZA tz_name c (JDate (Some a)) (JDate (Some b)) = Ok 0.
Proof.
  intros [->|[->| ->]];
    [exists {| dateSensitivity := []; dateUsage := JStr (lit "local") |}
    |exists {| dateSensitivity := []; dateUsage := JStr (lit "local") |}
    |exists {| dateSensitivity := []; dateUsage := JStr (lit "utc") |}];
    split; try reflexivity; intros; reflexivity.
Qed.

(** ** Witnesses: the theorems with hypotheses applied at concrete inputs *)



Lemma construct_dateSensitivity_type_witness :
  (exists msg, construct utc_offset utc_name
     (Some {| opt_dateSensitivity := JStr (lit "year"); opt_dateUsage := JUndefined |})
     = Err (TypeError msg))
  /\ construct utc_offset utc_name
       (Some {| opt_dateSensitivity := JNum 0; opt_dateUsage := JStr (lit "utc") |})
     = construct utc_offset utc_name
         (Some {| opt_dateSensitivity := JUndefined; opt_dateUsage := JStr (lit "utc") |}).
Proof.
  split.
  - apply (proj1 (construct_dateSensitivity_type utc_offset utc_name
                    (JStr (lit "year")) JUndefined)); reflexivity.
  - apply (proj2 (construct_dateSensitivity_type utc_offset utc_name
                    (JNum 0) (JStr (lit "utc")))); reflexivity.
Defined.

Lemma compare_refines_short_circuit_witness :
  compare edt_offset edt_name default_collator
    (JDate (Some date2020_03_23T17_00)) (JDate (Some date2020_03_23T11_00))
  = short_circuit_compare edt_offset edt_name (dateUsage default_collator)
      (dateSensitivity default_collator) date2020_03_23T17_00 date2020_03_23T11_00.
Proof.
  apply (compare_refines_short_circuit edt_offset edt_name None). vm_compute. reflexivity.
Defined.

Lemma compare_result_unit_witness :
  compare edt_offset edt_name default_collator
    (JDate (Some date2020_03_23T09_00)) (JDate (Some date2026_03_23T11_00)) = Ok (-1)
  /\ (-1 = -1 \/ -1 = 0 \/ -1 = 1).
Proof.
  assert (H : compare edt_offset edt_name default_collator
    (JDate (Some date2020_03_23T09_00)) (JDate (Some date2026_03_23T11_00)) = Ok (-1))
    by (vm_compute; reflexivity).
  split; [exact H|]. exact (compare_result_unit _ _ _ _ _ _ H).
Defined.

Lemma empty_sensitivity_all_equal_witness :
  exists c,
    construct edt_offset edt_name
      (Some {| opt_dateSensitivity := JArray []; opt_dateUsage := JStr (lit "utc") |}) = Ok c
    /\ forall a b, compare edt_offset edt_name c (JDate (Some a)) (JDate (Some b)) = Ok 0.
Proof.
  apply (empty_sensitivity_all_equal edt_offset edt_name (JStr (lit "utc"))).
  right; right; reflexivity.
Defined.

(** ** Further properties of the code *)

(** Every recognized part, under a recognized usage, compares one value
    extracted from each date by the same function. *)
Lemma part_pair_split (LocalTZA : Z -> Z) (tz_name : Z -> jstr) (du p : jsval) :
  includes DateSensitivity_values p = true -> includes DateUsage_values du = true ->
  exists f : Z -> Z, forall l r, part_pair LocalTZA tz_name du p l r = Ok (f l, f r).
Proof.
  intros Hp Hdu. unfold part_pair.
  destruct (is_str du "local") eqn:E1; [|destruct (is_str du "utc") eqn:E2];
    [| |contradict_includes Hdu];
  unfold switch_date_part;
  repeat match goal with
         | |- context [if is_str p ?s then _ else _] =>
             destruct (is_str p s) eqn:?; [eexists; intros; reflexivity|]
         end;
  contradict_includes Hp.
Qed.

Lemma short_circuit_keys (LocalTZA : Z -> Z) (tz_name : Z -> jstr) (du : jsval)
    (ps : list jsval) :
  forallb (includes DateSensitivity_values) ps = true -> includes DateUsage_values du = true ->
  exists fs, forall l r,
    short_circuit_compare LocalTZA tz_name du ps l r = Ok (lex_sign (keys fs l) (keys fs r)).
Proof.
  intros Hps Hdu. induction ps as [|p ps IH]; simpl in *.
  - exists []. reflexivity.
  - apply andb_prop in Hps as [Hp Hps].
    destruct (part_pair_split LocalTZA tz_name du p Hp Hdu) as [f Hf].
    destruct (IH Hps) as [fs Hfs].
    exists (f :: fs). intros l r. rewrite Hf. simpl. rewrite Hfs.
    destruct (f l - f r =? 0); reflexivity.
Qed.

(** On two valid dates a constructed comparator is [lex_sign] of the
    part keys of the configuration. *)
Lemma compare_dates_keys (LocalTZA : Z -> Z) (tz_name : Z -> jstr) (o : option options)
    (c : collator) :
  construct LocalTZA tz_name o = Ok c ->
  exists fs, forall l r,
    compare LocalTZA tz_name c (JDate (Some l)) (JDate (Some r))
    = Ok (lex_sign (keys fs l) (keys fs r)).
Proof.
  intros Hc. destruct (construct_valid LocalTZA tz_name o c Hc) as [Hds Hdu].
  destruct (short_circuit_keys LocalTZA tz_name _ _ Hds Hdu) as [fs Hfs].
  exists fs. intros l r. rewrite <- Hfs.
  rewrite <- (reduce_refines LocalTZA tz_name (dateUsage c) l r _ Hds Hdu).
  rewrite compare_dates. destruct (map_res _ _); reflexivity.
Qed.

Lemma lex_sign_keys_trans (fs : list (Z -> Z)) (a b d : Z) :
  lex_sign (keys fs a) (keys fs b) <= 0 -> lex_sign (keys fs b) (keys fs d) <= 0 ->
  lex_sign (keys fs a) (keys fs d) <= 0
  /\ (lex_sign (keys fs a) (keys fs d) = 0 <->
      lex_sign (keys fs a) (keys fs b) = 0 /\ lex_sign (keys fs b) (keys fs d) = 0).
Proof.
  induction fs as [|f fs IH]; simpl; [lia|].
  intros H1 H2.
  destruct (Z.eqb_spec (f a - f b) 0) as [E1|E1];
  destruct (Z.eqb_spec (f b - f d) 0) as [E2|E2];
  destruct (Z.eqb_spec (f a - f d) 0) as [E3|E3]; try lia;
    try (apply IH; assumption);
    pose proof (Z.sgn_spec (f a - f b)); pose proof (Z.sgn_spec (f b - f d));
    pose proof (Z.sgn_spec (f a - f d)); lia.
Qed.

Lemma lex_sign_keys_refl (fs : list (Z -> Z)) (a : Z) : lex_sign (keys fs a) (keys fs a) = 0.
Proof. induction fs as [|f fs IH]; simpl; [reflexivity|]. rewrite Z.sub_diag. exact IH. Qed.



Lemma map_res_ext {A B} (f g : A -> res B) (xs : list A) :
  (forall x, In x xs -> f x = g x) -> map_res f xs = map_res g xs.
Proof.
  intros H. induction xs as [|x xs IH]; simpl; [reflexivity|].
  rewrite (H x (or_introl eq_refl)), IH by (intros; apply H; right; assumption).
  reflexivity.
Qed.

Lemma forallb_In_true {A} (f : A -> bool) (xs : list A) (x : A) :
  forallb f xs = true -> In x xs -> f x = true.
Proof. rewrite forallb_forall. auto. Qed.

(** Under a recognized configuration, [compare] on two valid dates is the
    short-circuit walk (the general form, without the constructor). *)
Lemma compare_dates_short_circuit (LocalTZA : Z -> Z) (tz_name : Z -> jstr)
    (ps : list jsval) (du : jsval) (l r : Z) :
  forallb (includes DateSensitivity_values) ps = true -> includes DateUsage_values du = true ->
  compare LocalTZA tz_name {| dateSensitivity := ps; dateUsage := du |}
    (JDate (Some l)) (JDate (Some r))
  = short_circuit_compare LocalTZA tz_name du ps l r.
Proof.
  intros Hps Hdu. rewrite <- (reduce_refines LocalTZA tz_name du l r ps Hps Hdu).
  rewrite compare_dates. destruct (map_res _ _); reflexivity.
Qed.

Lemma short_circuit_app (LocalTZA : Z -> Z) (tz_name : Z -> jstr) (du : jsval)
    (ps qs : list jsval) (l r : Z) :
  short_circuit_compare LocalTZA tz_name du (ps ++ qs) l r
  = match short_circuit_compare LocalTZA tz_name du ps l r with
    | Ok 0 => short_circuit_compare LocalTZA tz_name du qs l r
    | other => other
    end.
Proof.
  induction ps as [|p ps IH]; simpl; [reflexivity|].
  destruct (part_pair LocalTZA tz_name du p l r) as [[a b]|e]; simpl; [|reflexivity].
  destruct (Z.eqb_spec (a - b) 0); [exact IH|].
  destruct (Z.sgn_spec (a - b)) as [[? ->]|[[? ->]|[? ->]]]; lia || reflexivity.
Qed.

Lemma switch_date_part_host (L1 L2 : Z -> Z) (T1 T2 : Z -> jstr) (g : date_getters)
    (p : jsval) (l r : Z) :
  includes DateSensitivity_values p = true ->
  switch_date_part L1 T1 g p l r = switch_date_part L2 T2 g p l r.
Proof.
  intros Hp. unfold switch_date_part.
  repeat match goal with
         | |- context [if is_str p ?s then _ else _] =>
             destruct (is_str p s) eqn:?; [reflexivity|]
         end;
  contradict_includes Hp.
Qed.



(** X3: on valid dates a constructed comparator is transitive: from
    [compare(a, b) <= 0] and [compare(b, d) <= 0] follows
    [compare(a, d) <= 0], which is [0] exactly when both are [0]. *)
Theorem compare_transitive_dates (LocalTZA : Z -> Z) (tz_name : Z -> jstr)
    (o : option options) (c : collator) (a b d x y : Z) :
  construct LocalTZA tz_name o = Ok c ->
  compare LocalTZA tz_name c (JDate (Some a)) (JDate (Some b)) = Ok x -> x <= 0 ->
  compare LocalTZA tz_name c (JDate (Some b)) (JDate (Some d)) = Ok y -> y <= 0 ->
  exists z, compare LocalTZA tz_name c (JDate (Some a)) (JDate (Some d)) = Ok z
    /\ z <= 0 /\ (z = 0 <-> x = 0 /\ y = 0).
Proof.
  intros Hc Hx Hx0 Hy Hy0.
  destruct (compare_dates_keys LocalTZA tz_name o c Hc) as [fs Hfs].
  rewrite Hfs in Hx, Hy. inversion Hx; inversion Hy; subst x y.
  exists (lex_sign (keys fs a) (keys fs d)). rewrite Hfs. split; [reflexivity|].
  apply lex_sign_keys_trans; assumption.
Qed.

(** X4: with a recognized usage and recognized parts, comparing by
    [ps ++ qs] is comparing by [ps] and, only when that gives [0], by
    [qs]; in particular repeating the parts ([ps ++ ps]) changes nothing. *)
Theorem compare_append_parts (LocalTZA : Z -> Z) (tz_name : Z -> jstr)
    (ps qs : list jsval) (du : jsval) (l r : Z) :
  forallb (includes DateSensitivity_values) ps = true ->
  forallb (includes DateSensitivity_values) qs = true ->
  includes DateUsage_values du = true ->
  let cmp parts := compare LocalTZA tz_name {| dateSensitivity := parts; dateUsage := du |}
                     (JDate (Some l)) (JDate (Some r)) in
  cmp (ps ++ qs) = match cmp ps with Ok 0 => cmp qs | other => other end
  /\ cmp (ps ++ ps) = cmp ps.
Proof.
  intros Hps Hqs Hdu cmp. unfold cmp.
  assert (Hpq : forallb (includes DateSensitivity_values) (ps ++ qs) = true)
    by (rewrite forallb_app, Hps, Hqs; reflexivity).
  assert (Hpp : forallb (includes DateSensitivity_values) (ps ++ ps) = true)
    by (rewrite forallb_app, Hps; reflexivity).
  rewrite !compare_dates_short_circuit by assumption.
  rewrite !short_circuit_app. split; [reflexivity|].
  destruct (short_circuit_compare LocalTZA tz_name du ps l r) as [[| |]|] eqn:E;
    reflexivity || exact E.
Qed.

(** X6: a constructed comparator in ['utc'] usage gives the same result on
    two valid dates whatever the host time zone. *)
Theorem compare_utc_host_independent (L1 L2 : Z -> Z) (T1 T2 : Z -> jstr)
    (o : option options) (c : collator) (l r : Z) :
  construct L1 T1 o = Ok c -> dateUsage c = JStr (lit "utc") ->
  compare L1 T1 c (JDate (Some l)) (JDate (Some r))
  = compare L2 T2 c (JDate (Some l)) (JDate (Some r)).
Proof.
  intros Hc Hu. destruct (construct_valid L1 T1 o c Hc) as [Hds _].
  rewrite !compare_dates, Hu.
  rewrite (map_res_ext (fun p => part_pair L1 T1 (JStr (lit "utc")) p l r)
                       (fun p => part_pair L2 T2 (JStr (lit "utc")) p l r)); [reflexivity|].
  intros p Hin. unfold part_pair. cbn.
  apply switch_date_part_host. exact (forallb_In_true _ _ _ Hds Hin).
Qed.

(** X7: under either usage, the ['dayPeriod'] part compares values in
    [{0, 1}] (a.m./p.m.) and the ['era'] part values in [{-1, 0, +1}]
    (the sign of the full year). *)
Theorem day_period_era_ranges (LocalTZA : Z -> Z) (tz_name : Z -> jstr) (du : jsval)
    (l r : Z) :
  includes DateUsage_values du = true ->
  (exists x y, part_pair LocalTZA tz_name du (JStr (lit "dayPeriod")) l r = Ok (x, y)
     /\ 0 <= x <= 1 /\ 0 <= y <= 1)
  /\ (exists x y, part_pair LocalTZA tz_name du (JStr (lit "era")) l r = Ok (x, y)
     /\ -1 <= x <= 1 /\ -1 <= y <= 1).
Proof.
  intros Hdu.
  assert (Hh : forall t, 0 <= HourFromTime t / 12 <= 1).
  { intros t. unfold HourFromTime.
    pose proof (Z.mod_pos_bound (t / 3600000) 24 ltac:(lia)).
    split; [apply Z.div_pos; lia|]. apply Z.lt_succ_r, Z.div_lt_upper_bound; lia. }
  assert (Hs : forall y, -1 <= Z.sgn y <= 1)
    by (intros y; destruct (Z.sgn_spec y) as [[? ->]|[[? ->]|[? ->]]]; lia).
  unfold part_pair.
  destruct (is_str du "local") eqn:E1; [|destruct (is_str du "utc") eqn:E2];
    [| |contradict_includes Hdu];
    split; eexists _, _; (split; [reflexivity|]); cbn; auto.
Qed.

(** X11: over inputs mixing valid and invalid dates the order is not
    transitive.  On a UTC host with the default configuration, for the
    Friday [b] (Jan 02 1970), the invalid date [i] and the Thursday [a]
    (Jan 01 1970): [compare(b, i) < 0] and [compare(i, a) < 0], yet
    [compare(b, a) > 0]. *)
Theorem compare_mixed_not_transitive :
  compare utc_offset utc_name default_collator (JDate (Some 86400000)) (JDate None) = Ok (-1)
  /\ compare utc_offset utc_name default_collator (JDate None) (JDate (Some 0)) = Ok (-1)
  /\ compare utc_offset utc_name default_collator (JDate (Some 86400000)) (JDate (Some 0)) = Ok 1.
Proof. vm_compute. repeat split. Qed.

(** ** Calendar arithmetic and the chronological order *)

Ltac divmod_facts :=
  repeat match goal with
  | |- context [?a / Zpos ?b] =>
      let q := fresh "q" in let r := fresh "r" in
      pose proof (Z.div_mod a (Zpos b) ltac:(lia));
      pose proof (Z.mod_pos_bound a (Zpos b) ltac:(lia));
      set (q := a / Zpos b) in *; set (r := a mod Zpos b) in *; clearbody q r
  | H : context [?a / Zpos ?b] |- _ =>
      let q := fresh "q" in let r := fresh "r" in
      pose proof (Z.div_mod a (Zpos b) ltac:(lia));
      pose proof (Z.mod_pos_bound a (Zpos b) ltac:(lia));
      set (q := a / Zpos b) in *; set (r := a mod Zpos b) in *; clearbody q r
  | |- context [?a mod Zpos ?b] =>
      let q := fresh "q" in let r := fresh "r" in
      pose proof (Z.div_mod a (Zpos b) ltac:(lia));
      pose proof (Z.mod_pos_bound a (Zpos b) ltac:(lia));
      set (q := a / Zpos b) in *; set (r := a mod Zpos b) in *; clearbody q r
  | H : context [?a mod Zpos ?b] |- _ =>
      let q := fresh "q" in let r := fresh "r" in
      pose proof (Z.div_mod a (Zpos b) ltac:(lia));
      pose proof (Z.mod_pos_bound a (Zpos b) ltac:(lia));
      set (q := a / Zpos b) in *; set (r := a mod Zpos b) in *; clearbody q r
  end.

Lemma dfy_step (y : Z) : DayFromYear (y + 1) - DayFromYear y = DaysInYear y.
Proof.
  unfold DayFromYear, DaysInYear.
  destruct (Z.eqb_spec (y mod 4) 0); destruct (Z.eqb_spec (y mod 100) 0);
  destruct (Z.eqb_spec (y mod 400) 0); cbn [negb]; divmod_facts; lia.
Qed.

Lemma dfy_mono (y1 y2 : Z) : y1 < y2 -> DayFromYear y1 < DayFromYear y2.
Proof. intros H. unfold DayFromYear. divmod_facts. lia. Qed.

Lemma year_estimate (t : Z) :
  DayFromYear (1970 + (Day t * 400) / 146097 - 1) <= Day t
  < DayFromYear (1970 + (Day t * 400) / 146097 + 2).
Proof. unfold DayFromYear. set (D := Day t). clearbody D. divmod_facts. lia. Qed.

Lemma year_day (t : Z) :
  DayFromYear (YearFromTime t) <= Day t < DayFromYear (YearFromTime t + 1).
Proof.
  pose proof (year_estimate t) as E.
  unfold YearFromTime, TimeFromYear.
  set (y0 := 1970 + (Day t * 400) / 146097) in *. clearbody y0.
  assert (Ht : msPerDay * Day t <= t < msPerDay * Day t + msPerDay)
    by (unfold Day, msPerDay; divmod_facts; lia).
  unfold msPerDay in *.
  destruct (Z.ltb_spec t (86400000 * DayFromYear y0));
  [|destruct (Z.leb_spec (86400000 * DayFromYear (y0 + 1)) t)];
  replace (y0 - 1 + 1) with y0 by lia; replace (y0 + 1 + 1) with (y0 + 2) in * by lia;
  nia.
Qed.

Lemma days_in_year_cases (y : Z) : DaysInYear y = 365 \/ DaysInYear y = 366.
Proof.
  unfold DaysInYear.
  destruct (y mod 4 =? 0); destruct (y mod 100 =? 0); destruct (y mod 400 =? 0);
    cbn [negb]; auto.
Qed.

Lemma day_within_year_range (t : Z) :
  0 <= DayWithinYear t < 365 + InLeapYear t /\ (InLeapYear t = 0 \/ InLeapYear t = 1).
Proof.
  pose proof (year_day t) as Hy. pose proof (dfy_step (YearFromTime t)) as Hs.
  unfold DayWithinYear, InLeapYear.
  destruct (days_in_year_cases (YearFromTime t)) as [E|E]; rewrite E in *; simpl; lia.
Qed.

Lemma month_date_mono (t1 t2 : Z) :
  YearFromTime t1 = YearFromTime t2 -> DayWithinYear t1 < DayWithinYear t2 ->
  MonthFromTime t1 < MonthFromTime t2
  \/ (MonthFromTime t1 = MonthFromTime t2 /\ DateFromTime t1 < DateFromTime t2).
Proof.
  intros Hy Hd.
  pose proof (day_within_year_range t1) as [R1 L1].
  pose proof (day_within_year_range t2) as [R2 L2].
  assert (El : InLeapYear t1 = InLeapYear t2) by (unfold InLeapYear; rewrite Hy; reflexivity).
  unfold DateFromTime, MonthFromTime in *. cbv zeta.
  rewrite <- El in *.
  set (d1 := DayWithinYear t1) in *. set (d2 := DayWithinYear t2) in *.
  set (l := InLeapYear t1) in *. clearbody d1 d2 l.
  repeat match goal with
         | |- context [?a <? ?b] => destruct (Z.ltb_spec a b)
         end; lia.
Qed.

Lemma time_of_day_digits (t : Z) :
  t = 86400000 * Day t + 3600000 * HourFromTime t + 60000 * MinFromTime t
      + 1000 * SecFromTime t + msFromTime t
  /\ 0 <= HourFromTime t < 24 /\ 0 <= MinFromTime t < 60
  /\ 0 <= SecFromTime t < 60 /\ 0 <= msFromTime t < 1000.
Proof.
  unfold Day, msPerDay, HourFromTime, MinFromTime, SecFromTime, msFromTime.
  divmod_facts. lia.
Qed.

Lemma dfy_le (y1 y2 : Z) : y1 <= y2 -> DayFromYear y1 <= DayFromYear y2.
Proof. intros H. destruct (Z.eq_dec y1 y2); [subst; lia|]. apply Z.lt_le_incl, dfy_mono. lia. Qed.

Lemma lex_step_lt (x y : Z) (xs ys : list Z) : x < y -> lex_sign (x :: xs) (y :: ys) = -1.
Proof. intros H. simpl. destruct (Z.eqb_spec (x - y) 0); [lia|]. apply Z.sgn_neg. lia. Qed.

Lemma lex_step_eq (x y : Z) (xs ys : list Z) :
  x = y -> lex_sign (x :: xs) (y :: ys) = lex_sign xs ys.
Proof. intros ->. simpl. rewrite Z.sub_diag. reflexivity. Qed.

Lemma lex_sign_antisym (xs ys : list Z) : lex_sign xs ys = - lex_sign ys xs.
Proof.
  revert ys. induction xs as [|x xs IH]; intros [|y ys]; simpl; try reflexivity.
  destruct (Z.eqb_spec (x - y) 0); destruct (Z.eqb_spec (y - x) 0); try lia;
    first [apply IH | replace (y - x) with (- (x - y)) by lia; rewrite Z.sgn_opp; lia].
Qed.


Lemma time_key_strict (a b : Z) : a < b -> lex_sign (keys time_fns a) (keys time_fns b) = -1.
Proof.
  intros Hab. unfold keys, time_fns. cbn [map].
  pose proof (year_day a) as Ya. pose proof (year_day b) as Yb.
  assert (Dab : Day a <= Day b) by (unfold Day; apply Z.div_le_mono; unfold msPerDay; lia).
  assert (Hy : YearFromTime a <= YearFromTime b).
  { destruct (Z.le_gt_cases (YearFromTime a) (YearFromTime b)) as [|H]; [assumption|].
    pose proof (dfy_le (YearFromTime b + 1) (YearFromTime a) ltac:(lia)). lia. }
  destruct (Z.lt_ge_cases (YearFromTime a) (YearFromTime b)) as [Hlt|Hge];
    [apply lex_step_lt; exact Hlt|].
  assert (Ey : YearFromTime a = YearFromTime b) by lia.
  rewrite lex_step_eq by exact Ey.
  destruct (Z.lt_ge_cases (Day a) (Day b)) as [Hd|Hd].
  - assert (Hw : DayWithinYear a < DayWithinYear b) by (unfold DayWithinYear; rewrite Ey; lia).
    destruct (month_date_mono a b Ey Hw) as [Hm|[Hm Hdt]];
      [apply lex_step_lt; exact Hm|].
    rewrite lex_step_eq by exact Hm. apply lex_step_lt. exact Hdt.
  - assert (Ed : Day a = Day b) by lia.
    assert (Ew : DayWithinYear a = DayWithinYear b) by (unfold DayWithinYear; rewrite Ey, Ed; reflexivity).
    assert (El : InLeapYear a = InLeapYear b) by (unfold InLeapYear; rewrite Ey; reflexivity).
    assert (Em : MonthFromTime a = MonthFromTime b) by (unfold MonthFromTime; rewrite Ew, El; reflexivity).
    assert (Edt : DateFromTime a = DateFromTime b)
      by (unfold DateFromTime; rewrite Em; cbv zeta; rewrite Ew, El; reflexivity).
    rewrite lex_step_eq by exact Em. rewrite lex_step_eq by exact Edt.
    pose proof (time_of_day_digits a) as [Ta Ba]. pose proof (time_of_day_digits b) as [Tb Bb].
    assert (HourFromTime a < HourFromTime b
      \/ (HourFromTime a = HourFromTime b
          /\ (MinFromTime a < MinFromTime b
              \/ (MinFromTime a = MinFromTime b
                  /\ (SecFromTime a < SecFromTime b
                      \/ (SecFromTime a = SecFromTime b /\ msFromTime a < msFromTime b))))))
      as Hc by lia.
    destruct Hc as [H1|[H1 [H2|[H2 [H3|[H3 H4]]]]]];
      repeat (rewrite lex_step_eq by eassumption); apply lex_step_lt; assumption.
Qed.

Lemma time_key_sign (a b : Z) : lex_sign (keys time_fns a) (keys time_fns b) = Z.sgn (a - b).
Proof.
  destruct (Z.lt_total a b) as [H|[->|H]].
  - rewrite time_key_strict by exact H. symmetry. apply Z.sgn_neg. lia.
  - rewrite Z.sub_diag, lex_sign_keys_refl. reflexivity.
  - rewrite lex_sign_antisym, time_key_strict by exact H. symmetry. apply Z.sgn_pos. lia.
Qed.

Lemma short_circuit_pointwise (LocalTZA : Z -> Z) (tz_name : Z -> jstr) (du : jsval)
    (ps : list jsval) (fs : list (Z -> Z)) :
  Forall2 (fun p f => forall l r, part_pair LocalTZA tz_name du p l r = Ok (f l, f r)) ps fs ->
  forall l r,
    short_circuit_compare LocalTZA tz_name du ps l r = Ok (lex_sign (keys fs l) (keys fs r)).
Proof.
  induction 1 as [|p f ps fs Hpf _ IH]; intros l r; [reflexivity|].
  simpl. rewrite Hpf. simpl. rewrite IH. destruct (f l - f r =? 0); reflexivity.
Qed.

Lemma default_parts_short_circuit (LocalTZA : Z -> Z) (tz_name : Z -> jstr) (l r : Z) :
  short_circuit_compare LocalTZA tz_name (JStr (lit "utc")) (dateSensitivity default_collator) l r
  = Ok (lex_sign (keys time_fns l) (keys time_fns r))
  /\ short_circuit_compare LocalTZA tz_name (JStr (lit "local")) (dateSensitivity default_collator) l r
  = Ok (lex_sign (keys time_fns (LocalTime LocalTZA l)) (keys time_fns (LocalTime LocalTZA r))).
Proof.
  split.
  - apply short_circuit_pointwise.
    repeat constructor; intros; reflexivity.
  - pose proof (short_circuit_pointwise LocalTZA tz_name (JStr (lit "local"))
      (dateSensitivity default_collator) (map (fun f t => f (LocalTime LocalTZA t)) time_fns))
      as H.
    rewrite H; [reflexivity|].
    repeat constructor; intros; reflexivity.
Qed.

Lemma default_parts_valid :
  forallb (includes DateSensitivity_values) (dateSensitivity default_collator) = true.
Proof. reflexivity. Qed.

(** X12: a comparator built with only [dateUsage: 'utc'] (the default
    parts) orders two valid dates chronologically: the result is the
    sign of the difference of their time values. *)
Theorem compare_utc_chronological (LocalTZA : Z -> Z) (tz_name : Z -> jstr) :
  exists c,
    construct LocalTZA tz_name
      (Some {| opt_dateSensitivity := JUndefined; opt_dateUsage := JStr (lit "utc") |}) = Ok c
    /\ forall a b, compare LocalTZA tz_name c (JDate (Some a)) (JDate (Some b)) = Ok (Z.sgn (a - b)).
Proof.
  exists {| dateSensitivity := dateSensitivity default_collator; dateUsage := JStr (lit "utc") |}.
  split; [reflexivity|]. intros a b.
  rewrite compare_dates_short_circuit by reflexivity.
  rewrite (proj1 (default_parts_short_circuit LocalTZA tz_name a b)).
  rewrite time_key_sign. reflexivity.
Qed.

(** X13: on a host whose local time is strictly increasing in the time
    value (no backward clock change), the default comparator orders two
    valid dates chronologically. *)
Theorem compare_local_chronological (LocalTZA : Z -> Z) (tz_name : Z -> jstr) :
  (forall x y, x < y -> LocalTime LocalTZA x < LocalTime LocalTZA y) ->
  exists c, construct LocalTZA tz_name None = Ok c
    /\ forall a b, compare LocalTZA tz_name c (JDate (Some a)) (JDate (Some b)) = Ok (Z.sgn (a - b)).
Proof.
  intros Hmono. exists default_collator. split; [reflexivity|]. intros a b.
  change default_collator with
    {| dateSensitivity := dateSensitivity default_collator; dateUsage := JStr (lit "local") |}.
  rewrite compare_dates_short_circuit by reflexivity.
  rewrite (proj2 (default_parts_short_circuit LocalTZA tz_name a b)).
  rewrite time_key_sign. f_equal.
  pose proof (Hmono a b) as Hab; pose proof (Hmono b a) as Hba.
  destruct (Z.lt_total a b) as [H|[->|H]].
  - rewrite !Z.sgn_neg by lia; reflexivity.
  - rewrite !Z.sub_diag. reflexivity.
  - rewrite !Z.sgn_pos by lia; reflexivity.
Qed.


(** X14: the default ('local') comparator does not follow the time line
    across a backward clock change.  On a host leaving daylight saving
    time at 2020-11-01T06:00Z (UTC-4, then UTC-5), 05:30Z (01:30 local)
    is ordered after 06:15Z (01:15 local). *)
Theorem compare_dst_inverts :
  compare dst_offset dst_name default_collator
    (JDate (Some 1604208600000)) (JDate (Some 1604211300000)) = Ok 1.
Proof. vm_compute. reflexivity. Qed.

Lemma compare_local_chronological_witness :
  exists c, construct edt_offset edt_name None = Ok c
    /\ forall a b, compare edt_offset edt_name c (JDate (Some a)) (JDate (Some b)) = Ok (Z.sgn (a - b)).
Proof.
  apply compare_local_chronological. intros x y H. unfold LocalTime, edt_offset. lia.
Defined.


(** ** The options object and the error paths of the comparison *)

(** X17: the constructor writes the effective [dateSensitivity] and
    [dateUsage] back into the options object it is given; building a
    second comparator from that object gives the same result (comparator
    or error) as from the original, and writing back again changes
    nothing. *)
Theorem construct_options_written (LocalTZA : Z -> Z) (tz_name : Z -> jstr) (o : options) :
  construct LocalTZA tz_name (Some (options_written o)) = construct LocalTZA tz_name (Some o)
  /\ options_written (options_written o) = options_written o.
Proof.
  destruct o as [ds du]. unfold options_written. cbn [opt_dateSensitivity opt_dateUsage].
  destruct (truthy ds) eqn:E1; destruct (truthy du) eqn:E2;
    rewrite ?E1, ?E2; (split; [|reflexivity]); unfold construct; cbv zeta;
    cbn [opt_dateSensitivity opt_dateUsage]; rewrite ?E1, ?E2; reflexivity.
Qed.






Lemma compare_transitive_dates_witness :
  exists z, compare utc_offset utc_name default_collator (JDate (Some 0)) (JDate (Some 2000)) = Ok z
    /\ z <= 0 /\ (z = 0 <-> -1 = 0 /\ -1 = 0).
Proof.
  apply (compare_transitive_dates utc_offset utc_name None default_collator 0 1000 2000 (-1) (-1));
    first [reflexivity | vm_compute; reflexivity | lia].
Defined.

Lemma compare_append_parts_witness :
  let cmp parts := compare utc_offset utc_name
                     {| dateSensitivity := parts; dateUsage := JStr (lit "utc") |}
                     (JDate (Some 0)) (JDate (Some 3600000)) in
  cmp ([JStr (lit "year")] ++ [JStr (lit "hour")])
  = match cmp [JStr (lit "year")] with Ok 0 => cmp [JStr (lit "hour")] | other => other end
  /\ cmp ([JStr (lit "year")] ++ [JStr (lit "year")]) = cmp [JStr (lit "year")].
Proof.
  apply compare_append_parts; reflexivity.
Defined.

Lemma compare_utc_host_independent_witness :
  compare utc_offset utc_name
    {| dateSensitivity := dateSensitivity default_collator; dateUsage := JStr (lit "utc") |}
    (JDate (Some 0)) (JDate (Some 3600000))
  = compare edt_offset edt_name
    {| dateSensitivity := dateSensitivity default_collator; dateUsage := JStr (lit "utc") |}
    (JDate (Some 0)) (JDate (Some 3600000)).
Proof.
  apply (compare_utc_host_independent utc_offset edt_offset utc_name edt_name
    (Some {| opt_dateSensitivity := JUndefined; opt_dateUsage := JStr (lit "utc") |}));
    reflexivity.
Defined.

Lemma day_period_era_ranges_witness :
  (exists x y, part_pair edt_offset edt_name (JStr (lit "local")) (JStr (lit "dayPeriod")) 0 0
     = Ok (x, y) /\ 0 <= x <= 1 /\ 0 <= y <= 1)
  /\ (exists x y, part_pair edt_offset edt_name (JStr (lit "local")) (JStr (lit "era")) 0 0
     = Ok (x, y) /\ -1 <= x <= 1 /\ -1 <= y <= 1).
Proof. apply day_period_era_ranges. reflexivity. Defined.

